(** * Sprint-analytics dashboard backend: a shallow embedding of [main.py]

    The route [/api/team-dashboard] synthesises eight sprint records from
    its query parameters and the current date.  The embedding keeps the
    Python values the function handles: integers are [Z], floats are
    IEEE-754 binary64 numbers ([PrimFloat.float]), and the few places where
    Python raises are threaded through an error monad. *)

From Stdlib Require Import ZArith List String Ascii Bool Lia.
From Stdlib Require Import DecimalString.
From Stdlib Require Import PrimFloat FloatOps SpecFloat.
Import ListNotations.

Set Warnings "-inexact-float".

Local Open Scope string_scope.
Local Open Scope Z_scope.

(** ** Exceptions and the error monad *)

Inductive exn : Type :=
| RequestValidationError   (* FastAPI rejects the query (HTTP 422) *)
| OverflowError            (* date arithmetic left [date.min, date.max] *)
| ZeroDivisionError.

Inductive result (A : Type) : Type :=
| Ok (a : A)
| Raise (e : exn).

Arguments Ok {A} a.
Arguments Raise {A} e.

Definition bind {A B : Type} (r : result A) (k : A -> result B) : result B :=
  match r with
  | Ok a => k a
  | Raise e => Raise e
  end.

Declare Scope py_scope.
Delimit Scope py_scope with py.
Notation "x <- c1 ;; c2" := (bind c1 (fun x => c2))
  (at level 100, c1 at next level, right associativity) : py_scope.
Local Open Scope py_scope.

(** [for x in xs: acc = body(acc, x)], stopping at the first exception. *)
Fixpoint foldM {A B : Type} (body : A -> B -> result A) (xs : list B) (acc : A)
  : result A :=
  match xs with
  | [] => Ok acc
  | x :: xs' => acc' <- body acc x ;; foldM body xs' acc'
  end.

(** ** Python numbers *)

Module Py.

(** A Python number is an [int] (unbounded) or a [float] (binary64). *)
Inductive num : Type :=
| Int (z : Z)
| Float (f : float).

(** [float(z)]: the binary64 number nearest to [z], ties to even.  Python
    raises [OverflowError] for integers beyond the binary64 range; the
    integers of this program stay far below [2^53], where the conversion
    is exact. *)
Definition float_of_Z (z : Z) : float :=
  SF2Prim (binary_normalize prec emax z 0 false).

(** What a pydantic [float] field stores when it is handed a number. *)
Definition as_float (x : num) : float :=
  match x with
  | Int z => float_of_Z z
  | Float f => f
  end.

(** Comparison of an [int] with a [float] is exact in Python: the float is
    [(-1)^s * m * 2^e] and both sides are compared as rationals. *)
Definition Z_ltb_float (z : Z) (f : float) : bool :=
  match Prim2SF f with
  | S754_nan => false
  | S754_zero _ => z <? 0
  | S754_infinity s => negb s
  | S754_finite s m e =>
      let v := cond_Zopp s (Zpos m) in
      if 0 <=? e then z <? v * 2 ^ e else z * 2 ^ (- e) <? v
  end.

Definition float_ltb_Z (f : float) (z : Z) : bool :=
  match Prim2SF f with
  | S754_nan => false
  | S754_zero _ => 0 <? z
  | S754_infinity s => s
  | S754_finite s m e =>
      let v := cond_Zopp s (Zpos m) in
      if 0 <=? e then v * 2 ^ e <? z else v <? z * 2 ^ (- e)
  end.

(** [a < b] *)
Definition lt (a b : num) : bool :=
  match a, b with
  | Int x, Int y => x <? y
  | Int x, Float g => Z_ltb_float x g
  | Float f, Int y => float_ltb_Z f y
  | Float f, Float g => PrimFloat.ltb f g
  end.

(** [max(a, b)] keeps the first argument unless the second is strictly
    greater; [min(a, b)] keeps it unless the second is strictly smaller.
    The result has the type of the argument that is kept. *)
Definition max (a b : num) : num := if lt a b then b else a.
Definition min (a b : num) : num := if lt b a then b else a.

Definition add (a b : num) : num :=
  match a, b with
  | Int x, Int y => Int (x + y)
  | _, _ => Float (as_float a + as_float b)
  end.

Definition sub (a b : num) : num :=
  match a, b with
  | Int x, Int y => Int (x - y)
  | _, _ => Float (as_float a - as_float b)
  end.

Definition mul (a b : num) : num :=
  match a, b with
  | Int x, Int y => Int (x * y)
  | _, _ => Float (as_float a * as_float b)
  end.

(** Truth value of a number: [if x] is taken when [x] is not zero. *)
Definition truthy (a : num) : bool :=
  match a with
  | Int x => negb (x =? 0)
  | Float f => negb (PrimFloat.eqb f 0)
  end.

(** [a / b]: true division, always a float; a zero divisor raises.  For
    two integers Python rounds the exact quotient once, which is what the
    binary64 division of the two conversions does while both are exact. *)
Definition truediv (a b : num) : result num :=
  if truthy b then Ok (Float (as_float a / as_float b))
  else Raise ZeroDivisionError.

(** [a / b] rounded to the nearest integer, ties to even ([0 < b]). *)
Definition round_half_even (a b : Z) : Z :=
  let q := a / b in
  let r := a mod b in
  if 2 * r <? b then q
  else if b <? 2 * r then q + 1
  else if Z.even q then q else q + 1.

(** The binary64 number nearest to [(-1)^s * n / p] ([0 <= n], [0 < p]). *)
Definition nearest_quotient (s : bool) (n p : Z) : float :=
  match n, p with
  | Zpos n', Zpos p' =>
      SF2Prim (SFdiv prec emax (S754_finite s n' 0) (S754_finite false p' 0))
  | _, _ => SF2Prim (S754_zero s)
  end.

(** [round(f, ndigits)] on a float, [0 <= ndigits]: CPython prints the
    exact value of [f] with [ndigits] decimals, correctly rounded (ties to
    even on the exact binary value), and reads the decimal string back as
    the nearest float.  NaN, infinities and zeros round to themselves. *)
Definition float_round (f : float) (ndigits : Z) : float :=
  match Prim2SF f with
  | S754_finite s m e =>
      let p := 10 ^ ndigits in
      let n := if 0 <=? e then Zpos m * 2 ^ e * p
               else round_half_even (Zpos m * p) (2 ^ (- e)) in
      nearest_quotient s n p
  | _ => f
  end.

(** [round(x, ndigits)] with [0 <= ndigits]: an [int] is returned as it
    is, a [float] is rounded to a [float]. *)
Definition round (x : num) (ndigits : Z) : num :=
  match x with
  | Int z => Int z
  | Float f => Float (float_round f ndigits)
  end.

(** [sum(xs)]: left to right, starting from the integer [0]. *)
Definition sum (xs : list num) : num := fold_left add xs (Int 0).

Definition len {A : Type} (xs : list A) : num := Int (Z.of_nat (List.length xs)).

(** [range(n)] *)
Definition range (n : Z) : list Z := map Z.of_nat (seq 0 (Z.to_nat n)).

(** [str(z)], as an f-string formats an integer. *)
Definition str (z : Z) : string := NilEmpty.string_of_int (Z.to_int z).

End Py.

(** ** Dates

    A [date] is its proleptic Gregorian ordinal ([date.toordinal()]), from
    [date.min] (ordinal 1) to [date.max] (9999-12-31).  A [timedelta] is a
    number of days; adding one to a date raises [OverflowError] when the
    result leaves that range. *)

Definition date : Type := Z.

Definition date_min : date := 1.
Definition date_max : date := 3652059.

Definition timedelta (weeks days : Z) : Z := 7 * weeks + days.

Definition date_add (d : date) (delta : Z) : result date :=
  let o := d + delta in
  if (date_min <=? o) && (o <=? date_max) then Ok o else Raise OverflowError.

Definition date_sub (d : date) (delta : Z) : result date :=
  date_add d (- delta).

(** ** The response models (pydantic [BaseModel]s)

    A field declared [float] stores [Py.as_float] of what the constructor is
    given; a field declared [int] or [str] stores the value itself.  Each
    model is a record in a module of its own, so that fields keep the names
    they have in the source. *)

Module KPI.
Record t : Type := new_
  { label : string;
    value : float;
    delta : option float;
    help : option string }.

Definition new (label : string) (value delta : Py.num) (help : string) : t :=
  new_ label (Py.as_float value) (Some (Py.as_float delta)) (Some help).
End KPI.

Module VelocityPoint.
Record t : Type := new_
  { key : string;
    start : date;
    end_ : date;
    committed : float;
    completed : float }.

Definition new (key : string) (start end_ : date) (committed completed : Py.num) : t :=
  new_ key start end_ (Py.as_float committed) (Py.as_float completed).
End VelocityPoint.

Module CommitmentPoint.
Record t : Type := new_
  { sprint : string;
    committed : float;
    completed : float;
    rollover : float;
    percent : float }.

Definition new (sprint : string) (committed completed rollover percent : Py.num) : t :=
  new_ sprint (Py.as_float committed) (Py.as_float completed)
       (Py.as_float rollover) (Py.as_float percent).
End CommitmentPoint.

Module RolloverPoint.
Record t : Type := new_
  { sprint : string;
    percent : float;
    committed : float;
    rolled : float }.

Definition new (sprint : string) (percent committed rolled : Py.num) : t :=
  new_ sprint (Py.as_float percent) (Py.as_float committed) (Py.as_float rolled).
End RolloverPoint.

Module ScopeSummary.
Record t : Type := new_
  { avg_added : float;
    avg_removed : float;
    avg_net_percent : float }.

Definition new (avg_added avg_removed avg_net_percent : Py.num) : t :=
  new_ (Py.as_float avg_added) (Py.as_float avg_removed)
       (Py.as_float avg_net_percent).
End ScopeSummary.

Module SprintRow.
Record t : Type := new_
  { sprint : string;
    start : date;
    end_ : date;
    committed : float;
    completed : float;
    completion_percent : float;
    rollover_points : float;
    rollover_percent : float;
    dor_compliance_percent : float;
    bugs_created : Z;
    items_reopened : Z }.

Definition new (sprint : string) (start end_ : date)
    (committed completed completion_percent rollover_points rollover_percent
     dor_compliance_percent : Py.num) (bugs_created items_reopened : Z) : t :=
  new_ sprint start end_ (Py.as_float committed) (Py.as_float completed)
       (Py.as_float completion_percent) (Py.as_float rollover_points)
       (Py.as_float rollover_percent) (Py.as_float dor_compliance_percent)
       bugs_created items_reopened.
End SprintRow.

Module TeamDashboardResponse.
Record t : Type := new
  { team_name : string;
    kpis : list KPI.t;
    velocity : list VelocityPoint.t;
    commitment_vs_completion : list CommitmentPoint.t;
    rollover_trend : list RolloverPoint.t;
    scope_change : ScopeSummary.t;
    sprint_rows : list SprintRow.t }.
End TeamDashboardResponse.

(** ** The synthesiser: [team_dashboard] *)

(** The four lists the loop appends to (the locals [velocity], [commit_vs],
    [rollover_points] and [rows]). *)
Record series : Type :=
  { velocity : list VelocityPoint.t;
    commit_vs : list CommitmentPoint.t;
    rollover_points : list RolloverPoint.t;
    rows : list SprintRow.t }.

Definition no_series : series :=
  {| velocity := []; commit_vs := []; rollover_points := []; rows := [] |}.

(** Second half of the loop body: the figures of sprint [i] and the four
    [append]s, once the label and the two dates are known. *)
Definition sprint_figures (base_points i : Z) (sprint_name : string)
    (start end_ : date) (acc : series) : result series :=
  let committed := base_points + (i mod 3) * 5 + 5 in
  let completed :=
    Py.max (Py.Float 0.0) (Py.Int (committed - (i mod 4) * 4 + ((i mod 2) * 2))) in
  let completed := Py.round (Py.min (Py.Int (committed + 3)) completed) 1 in
  let rollover :=
    Py.max (Py.Float 0.0) (Py.round (Py.sub (Py.Int committed) completed) 1) in
  percent_arg <-
    (if Py.truthy (Py.Int committed)
     then q <- Py.truediv completed (Py.Int committed) ;;
          Ok (Py.mul (Py.Float 100.0) q)
     else Ok (Py.Int 0)) ;;
  let percent := Py.round percent_arg 1 in
  roll_percent_arg <-
    (if Py.truthy (Py.Int committed)
     then q <- Py.truediv rollover (Py.Int committed) ;;
          Ok (Py.mul (Py.Float 100.0) q)
     else Ok (Py.Int 0)) ;;
  let roll_percent := Py.round roll_percent_arg 1 in
  let dor := Py.round (Py.Int (80 + (i mod 5) * 3 - (i mod 2))) 1 in
  let bugs_created := 5 + (i mod 4) * 2 in
  let reopened := i mod 3 in
  Ok {| velocity :=
          velocity acc ++
          [VelocityPoint.new sprint_name start end_ (Py.Int committed) completed];
        commit_vs :=
          commit_vs acc ++
          [CommitmentPoint.new sprint_name (Py.Int committed) completed rollover
             percent];
        rollover_points :=
          rollover_points acc ++
          [RolloverPoint.new sprint_name roll_percent (Py.Int committed) rollover];
        rows :=
          rows acc ++
          [SprintRow.new sprint_name start end_ (Py.Int committed) completed
             percent rollover roll_percent dor bugs_created reopened] |}.

(** One pass of [for i in range(sprint_count)]. *)
Definition sprint_iteration (base_points sprint_count : Z) (today : date)
    (acc : series) (i : Z) : result series :=
  let idx := sprint_count - i in
  let sprint_name := "Sprint " ++ Py.str idx in
  start <- date_sub today (timedelta ((sprint_count - i) * 2) 0) ;;
  end_ <- date_add start (timedelta 0 13) ;;
  sprint_figures base_points i sprint_name start end_ acc.

(** The function behind [/api/team-dashboard].  [today] is the value that
    [date.today()] returns during the call. *)
Definition team_dashboard (team_id team_name grouping : string)
    (include_done_only : bool) (item_types : list string) (today : date)
  : result TeamDashboardResponse.t :=
  let base_points := if include_done_only then 30 else 35 in
  let sprint_count := 8 in
  s <- foldM (sprint_iteration base_points sprint_count today)
             (Py.range sprint_count) no_series ;;
  let velocity := velocity s in
  let commit_vs := commit_vs s in
  let rollover_points := rollover_points s in
  let rows := rows s in
  q <- Py.truediv
         (Py.sum (map (fun v => Py.Float (VelocityPoint.completed v)) velocity))
         (Py.len velocity) ;;
  let avg_velocity := Py.round q 1 in
  q <- Py.truediv
         (Py.mul (Py.sum (map (fun _ => Py.Int 1) velocity)) (Py.Int 10))
         (Py.len velocity) ;;
  let avg_throughput := Py.round q 1 in
  q <- Py.truediv
         (Py.sum (map (fun c => Py.Float (CommitmentPoint.completed c)) commit_vs))
         (Py.sum (map (fun c => Py.Float (CommitmentPoint.committed c)) commit_vs)) ;;
  let commitment_completion := Py.round (Py.mul q (Py.Int 100)) 1 in
  q <- Py.truediv
         (Py.sum (map (fun c => Py.Float (CommitmentPoint.rollover c)) commit_vs))
         (Py.sum (map (fun c => Py.Float (CommitmentPoint.committed c)) commit_vs)) ;;
  let rollover_rate := Py.round (Py.mul q (Py.Int 100)) 1 in
  q <- Py.truediv
         (Py.sum (map (fun r => Py.Float (SprintRow.dor_compliance_percent r)) rows))
         (Py.len rows) ;;
  let dor_compliance := Py.round q 1 in
  q <- Py.truediv
         (Py.sum (map (fun r => Py.Int (SprintRow.bugs_created r)) rows))
         (Py.max (Py.Int 1) (Py.mul (Py.len rows) (Py.Int 12))) ;;
  let bug_ratio := Py.round q 2 in
  let kpis :=
    [ KPI.new "Velocity" avg_velocity (Py.Float 1.2)
        "Average story points completed per sprint in the selected range.";
      KPI.new "Throughput" avg_throughput (Py.Float (-0.5))
        "Number of items completed per sprint in the selected range.";
      KPI.new "Commitment completion %" commitment_completion (Py.Float 2.1)
        "Completed points divided by points committed at sprint start.";
      KPI.new "Rollover rate %" rollover_rate (Py.Float (-1.4))
        "Rolled-over points divided by committed points.";
      KPI.new "DoR compliance %" dor_compliance (Py.Float 0.8)
        "Percentage of items that met Definition of Ready before sprint start.";
      KPI.new "Bug ratio" bug_ratio (Py.Float (-0.1))
        "Number of bugs divided by number of stories completed." ] in
  let scope :=
    ScopeSummary.new (Py.round (Py.Float 3.2) 1) (Py.round (Py.Float 1.4) 1)
      (Py.round (Py.Float 6.5) 1) in
  let velocity_sorted := rev velocity in
  let commit_sorted := rev commit_vs in
  let rollover_sorted := rev rollover_points in
  let rows_sorted := rev rows in
  Ok (TeamDashboardResponse.new team_name kpis velocity_sorted commit_sorted
        rollover_sorted scope rows_sorted).

(** ** The route

    The only constraint the signature puts on the query is the [pattern] of
    [grouping], [^(By sprint|By week|By month)$]: the three labels are what
    it accepts, and FastAPI answers any other value with a validation error
    without calling the function. *)

Definition grouping_accepted (grouping : string) : bool :=
  (grouping =? "By sprint")%string || (grouping =? "By week")%string
  || (grouping =? "By month")%string.

Definition get_team_dashboard (team_id team_name grouping : string)
    (include_done_only : bool) (item_types : list string) (today : date)
  : result TeamDashboardResponse.t :=
  if grouping_accepted grouping
  then team_dashboard team_id team_name grouping include_done_only item_types today
  else Raise RequestValidationError.

(** A valid input: a query that passes validation, served on a day from
    which sixteen weeks can be subtracted. *)
Definition valid_input (grouping : string) (today : date) : Prop :=
  grouping_accepted grouping = true /\ date_min + 112 <= today <= date_max.

(** The defaults of the query parameters. *)
Definition default_team_id : string := "team-1".
Definition default_team_name : string := "Alpha Team".
Definition default_grouping : string := "By sprint".
Definition default_item_types : list string := ["Stories"; "Bugs"; "Tasks"; "Epics"].

(** A day to run the route on: 2024-01-01. *)
Definition example_today : date := 738886.

(** The record the loop appended at offset [i]: the response lists are the
    loop's lists reversed, so reversing them again gives generation order. *)
Definition generated_row (resp : TeamDashboardResponse.t) (i : nat)
  : option SprintRow.t :=
  nth_error (rev (TeamDashboardResponse.sprint_rows resp)) i.

(** The start and end dates of the sprint at offset [i], when no date
    leaves the calendar. *)
Definition sprint_start (today : date) (i : Z) : date :=
  today - timedelta ((8 - i) * 2) 0.

Definition sprint_end (today : date) (i : Z) : date :=
  sprint_start today i + timedelta 0 13.

(** The value of the KPI with a given label. *)
Definition kpi_value (resp : TeamDashboardResponse.t) (label : string)
  : option float :=
  option_map KPI.value
    (find (fun k => (KPI.label k =? label)%string)
          (TeamDashboardResponse.kpis resp)).

(** ** The formulas of the specification

    Written from the specification's wording over the float fields of a
    record of the response, to be compared with what the code stored. *)

(** [max(0, committed - completed)] rounded to 1 decimal. *)
Definition spec_rollover (committed completed : float) : float :=
  Py.as_float
    (Py.round (Py.max (Py.Int 0) (Py.Float (committed - completed))) 1).

(** [round(100 * completed / committed, 1)], and 0 when [committed] is 0. *)
Definition spec_completion_percent (committed completed : float) : float :=
  if (committed =? 0)%float then 0%float
  else Py.float_round (100 * completed / committed) 1.

(** [round(sum(completed) / sum(committed) * 100, 1)] over a series. *)
Definition spec_commitment_completion (points : list CommitmentPoint.t) : float :=
  let total_completed :=
    Py.as_float (Py.sum (map (fun c => Py.Float (CommitmentPoint.completed c)) points)) in
  let total_committed :=
    Py.as_float (Py.sum (map (fun c => Py.Float (CommitmentPoint.committed c)) points)) in
  Py.float_round (total_completed / total_committed * 100) 1.

(** The eight labels, in the order of the specification (descending) and in
    ascending order. *)
Definition labels_descending : list string :=
  ["Sprint 8"; "Sprint 7"; "Sprint 6"; "Sprint 5";
   "Sprint 4"; "Sprint 3"; "Sprint 2"; "Sprint 1"].

Definition labels_ascending : list string := rev labels_descending.

(** ** Python strings

    A [str] is kept as its UTF-8 encoding.  A character starts at every byte
    that is not a continuation byte (10xxxxxx), so [len] and the slice
    [s[:n]] count those. *)

Module PyStr.

Definition continuation (c : Ascii.ascii) : bool :=
  let n := Ascii.nat_of_ascii c in (128 <=? n)%nat && (n <? 192)%nat.

(** [len(s)] *)
Fixpoint len (s : string) : nat :=
  match s with
  | EmptyString => O
  | String c s' => if continuation c then len s' else S (len s')
  end.

(** [s[:n]] *)
Fixpoint take (n : nat) (s : string) : string :=
  match s with
  | EmptyString => EmptyString
  | String c s' =>
      if continuation c then String c (take n s')
      else match n with
           | O => EmptyString
           | S n' => String c (take n' s')
           end
  end.

(** Truth value of a string: [if s] is taken when [s] is not empty. *)
Definition truthy (s : string) : bool :=
  match s with
  | EmptyString => false
  | String _ _ => true
  end.

End PyStr.

(** ** The diagnostic route [/test]: [test_database]

    What the function finds around it is an input of the model: the outcome
    of [from database import db], what the [db] object answers, and the two
    environment variables. *)

Module TestDatabase.

(** Reading the attribute [name] of [db]: it is missing ([hasattr] is
    false), it has a value, or reading it raises. *)
Inductive attribute : Type :=
| Missing
| Value (v : string)
| Raises (message : string).

(** The [db] object: its [name] and the answer of
    [list_collection_names()], a list or an exception with its text. *)
Record db_object : Type :=
  { name : attribute;
    list_collection_names : string + list string }.

(** [from database import db]: [ImportError], another exception with its
    text, or the value of [db], which may be [None]. *)
Inductive import_outcome : Type :=
| ImportFails
| ImportRaises (message : string)
| Imported (db : option db_object).

(** The dictionary that is returned, one field per key. *)
Record t : Type := new
  { backend : string;
    database : string;
    database_url : option string;
    database_name : option string;
    connection_status : string;
    collections : list string }.

Definition set_database (v : string) (r : t) : t :=
  new (backend r) v (database_url r) (database_name r) (connection_status r)
      (collections r).

Definition set_database_url (v : option string) (r : t) : t :=
  new (backend r) (database r) v (database_name r) (connection_status r)
      (collections r).

Definition set_database_name (v : option string) (r : t) : t :=
  new (backend r) (database r) (database_url r) v (connection_status r)
      (collections r).

Definition set_connection_status (v : string) (r : t) : t :=
  new (backend r) (database r) (database_url r) (database_name r) v
      (collections r).

Definition set_collections (v : list string) (r : t) : t :=
  new (backend r) (database r) (database_url r) (database_name r)
      (connection_status r) v.

(** [os.getenv(k)] taken as a condition: the variable is set and not empty. *)
Definition getenv_truthy (v : option string) : bool :=
  match v with
  | Some s => PyStr.truthy s
  | None => false
  end.

Definition test_database (imported : import_outcome)
    (DATABASE_URL DATABASE_NAME : option string) : t :=
  let response :=
    {| backend := "✅ Running";
       database := "❌ Not Available";
       database_url := None;
       database_name := None;
       connection_status := "Not Connected";
       collections := [] |} in
  let response :=
    match imported with
    | Imported (Some db) =>
        let response := set_database "✅ Available" response in
        let response := set_database_url (Some "✅ Configured") response in
        match name db with
        | Raises e =>
            set_database ("❌ Error: " ++ PyStr.take 50 e) response
        | attr =>
            let response :=
              set_database_name
                (Some match attr with
                      | Value v => v
                      | _ => "✅ Connected"
                      end) response in
            let response := set_connection_status "Connected" response in
            match list_collection_names db with
            | inr collections =>
                let response :=
                  set_collections (firstn 10 collections) response in
                set_database "✅ Connected & Working" response
            | inl e =>
                set_database ("⚠️  Connected but Error: " ++ PyStr.take 50 e)
                             response
            end
        end
    | Imported None =>
        set_database "⚠️  Available but not initialized" response
    | ImportFails =>
        set_database "❌ Database module not found (run enable-database first)"
                     response
    | ImportRaises e =>
        set_database ("❌ Error: " ++ PyStr.take 50 e) response
    end in
  let response :=
    set_database_url
      (Some (if getenv_truthy DATABASE_URL then "✅ Set" else "❌ Not Set"))
      response in
  let response :=
    set_database_name
      (Some (if getenv_truthy DATABASE_NAME then "✅ Set" else "❌ Not Set"))
      response in
  response.

End TestDatabase.

(** ** Quantities used to state what the route returns *)

(** [sum(xs)] of a list of floats, as a float. *)
Definition float_sum (xs : list float) : float :=
  Py.as_float (Py.sum (map Py.Float xs)).

(** [len(xs)] as a float divisor. *)
Definition float_len {A : Type} (xs : list A) : float :=
  Py.as_float (Py.len xs).

(** The exception a call ended with, if any. *)
Definition raised {A : Type} (r : result A) : option exn :=
  match r with
  | Ok _ => None
  | Raise e => Some e
  end.

(** A row without its two dates. *)
Definition row_figures (r : SprintRow.t)
  : string * float * float * float * float * float * float * Z * Z :=
  (SprintRow.sprint r, SprintRow.committed r, SprintRow.completed r,
   SprintRow.completion_percent r, SprintRow.rollover_points r,
   SprintRow.rollover_percent r, SprintRow.dor_compliance_percent r,
   SprintRow.bugs_created r, SprintRow.items_reopened r).

(** ** Basic facts about the monad, the loop and the dates *)

Lemma bind_Ok_inv {A B : Type} (r : result A) (k : A -> result B) (b : B) :
  bind r k = Ok b -> exists a, r = Ok a /\ k a = Ok b.
Proof.
  destruct r as [a|e]; simpl; intros H.
  - exists a. split; [reflexivity | exact H].
  - discriminate H.
Qed.

Lemma Ok_intro {A : Type} (P : A -> Prop) (r : result A) (a : A) :
  r = Ok a -> P a -> exists x, r = Ok x /\ P x.
Proof.
  intros Hr HP. exists a. split; assumption.
Qed.

Lemma foldM_ext_in {A B : Type} (f g : A -> B -> result A) (xs : list B) :
  (forall acc x, In x xs -> f acc x = g acc x) ->
  forall acc, foldM f xs acc = foldM g xs acc.
Proof.
  induction xs as [|x xs IH]; intros Hfg acc; simpl.
  - reflexivity.
  - rewrite (Hfg acc x (or_introl eq_refl)).
    destruct (g acc x) as [acc'|e]; simpl.
    + apply IH. intros a y Hy. apply Hfg. right. exact Hy.
    + reflexivity.
Qed.

Lemma foldM_Ok_each {A B : Type} (f : A -> B -> result A) (xs : list B) :
  forall acc out, foldM f xs acc = Ok out ->
  forall x, In x xs -> exists a b, f a x = Ok b.
Proof.
  induction xs as [|y ys IH]; intros acc out H x Hx.
  - destruct Hx.
  - simpl in H. apply bind_Ok_inv in H. destruct H as (acc' & Hy & Hys).
    destruct Hx as [->|Hx].
    + exists acc, acc'. exact Hy.
    + exact (IH acc' out Hys x Hx).
Qed.

Lemma range_bounds (n i : Z) : In i (Py.range n) -> 0 <= i < n.
Proof.
  unfold Py.range. rewrite in_map_iff. intros (k & <- & Hk).
  apply in_seq in Hk. lia.
Qed.

Lemma date_add_Ok (d delta : Z) :
  date_min <= d + delta <= date_max -> date_add d delta = Ok (d + delta).
Proof.
  intros [Hlo Hhi]. unfold date_add.
  apply Z.leb_le in Hlo. apply Z.leb_le in Hhi.
  rewrite Hlo, Hhi. reflexivity.
Qed.

Lemma date_add_Ok_inv (d delta o : Z) :
  date_add d delta = Ok o -> o = d + delta /\ date_min <= o <= date_max.
Proof.
  unfold date_add.
  destruct (date_min <=? d + delta) eqn:Hlo; simpl; [|discriminate].
  destruct (d + delta <=? date_max) eqn:Hhi; [|discriminate].
  intros H. injection H as <-.
  apply Z.leb_le in Hlo. apply Z.leb_le in Hhi. lia.
Qed.

(** While the dates stay on the calendar, a pass of the loop is the figures
    of the sprint at the dates [sprint_start] and [sprint_end]. *)
Lemma sprint_iteration_dates (base_points : Z) (today : date) (acc : series) (i : Z) :
  date_min + 112 <= today <= date_max + 1 -> 0 <= i < 8 ->
  sprint_iteration base_points 8 today acc i =
  sprint_figures base_points i ("Sprint " ++ Py.str (8 - i))
                 (sprint_start today i) (sprint_end today i) acc.
Proof.
  intros Htoday Hi. unfold sprint_iteration, date_sub, sprint_end, sprint_start.
  unfold date_min, date_max, timedelta in *.
  rewrite date_add_Ok by (unfold date_min, date_max; lia). cbn [bind].
  rewrite date_add_Ok by (unfold date_min, date_max; lia). cbn [bind].
  f_equal; lia.
Qed.

Lemma loop_dates (base_points : Z) (today : date) (acc : series) :
  date_min + 112 <= today <= date_max + 1 ->
  foldM (sprint_iteration base_points 8 today) (Py.range 8) acc =
  foldM (fun acc i =>
           sprint_figures base_points i ("Sprint " ++ Py.str (8 - i))
                          (sprint_start today i) (sprint_end today i) acc)
        (Py.range 8) acc.
Proof.
  intros Htoday. apply foldM_ext_in. intros a i Hi.
  apply sprint_iteration_dates; [exact Htoday | apply range_bounds; exact Hi].
Qed.

Lemma valid_input_dates (grouping : string) (today : date) :
  valid_input grouping today -> date_min + 112 <= today <= date_max + 1.
Proof. intros [_ H]. lia. Qed.

(** A response was produced only if the query passed validation and the
    sixteen weeks could be subtracted from [today]. *)
Lemma get_team_dashboard_Ok_inv (team_id team_name grouping : string)
    (include_done_only : bool) (item_types : list string) (today : date)
    (resp : TeamDashboardResponse.t) :
  get_team_dashboard team_id team_name grouping include_done_only item_types today
    = Ok resp ->
  grouping_accepted grouping = true /\ date_min + 112 <= today <= date_max + 1.
Proof.
  unfold get_team_dashboard.
  destruct (grouping_accepted grouping); [|discriminate].
  unfold team_dashboard. cbv zeta. intros H.
  apply bind_Ok_inv in H. destruct H as (s & Hloop & _).
  split; [reflexivity|].
  assert (H0 : In 0 (Py.range 8)) by (vm_compute; tauto).
  assert (H7 : In 7 (Py.range 8)) by (vm_compute; tauto).
  destruct (foldM_Ok_each _ _ _ _ Hloop 0 H0) as (a0 & b0 & E0).
  destruct (foldM_Ok_each _ _ _ _ Hloop 7 H7) as (a7 & b7 & E7).
  unfold sprint_iteration, date_sub in E0, E7.
  apply bind_Ok_inv in E0. destruct E0 as (s0 & Hs0 & _).
  apply bind_Ok_inv in E7. destruct E7 as (s7 & Hs7 & E7).
  apply bind_Ok_inv in E7. destruct E7 as (e7 & He7 & _).
  apply date_add_Ok_inv in Hs0, Hs7, He7.
  unfold timedelta, date_min, date_max in *. lia.
Qed.

(** Evaluation of the route on an accepted query ([Hg]) and a day in range
    ([Hd]): the validation is passed, the dates are replaced by
    [sprint_start] and [sprint_end], which are then kept abstract while
    everything else is computed. *)
Ltac run_dashboard Hg Hd :=
  unfold get_team_dashboard; rewrite Hg;
  unfold team_dashboard; cbv zeta;
  rewrite (loop_dates _ _ _ Hd);
  match goal with
  | |- context [sprint_start ?t] =>
      generalize (sprint_start t) (sprint_end t); intros ? ?
  end;
  eapply Ok_intro; [vm_compute; reflexivity | ].

Ltac run_valid H := run_dashboard (proj1 H) (valid_input_dates _ _ H).

(** A property of each of the eight generated rows, one offset at a time. *)
Ltac each_offset tac :=
  let i := fresh "i" in
  let Hi := fresh "Hi" in
  intros i Hi;
  do 8 (destruct i as [|i]; [eexists; split; [reflexivity | tac] | ]);
  exfalso; lia.

(** The facts below on [dor_compliance_percent] hold whenever a response is
    produced. *)
Lemma dor_compliance_not_above_100 (team_id team_name grouping : string)
    (include_done_only : bool) (item_types : list string) (today : date)
    (resp : TeamDashboardResponse.t) :
  get_team_dashboard team_id team_name grouping include_done_only item_types today
    = Ok resp ->
  Forall (fun r => (100 <? SprintRow.dor_compliance_percent r)%float = false)
         (TeamDashboardResponse.sprint_rows resp).
Proof.
  intros Hok. destruct (get_team_dashboard_Ok_inv _ _ _ _ _ _ _ Hok) as [Hg Hd].
  assert (E : exists resp',
             get_team_dashboard team_id team_name grouping include_done_only
               item_types today = Ok resp' /\
             Forall (fun r => (100 <? SprintRow.dor_compliance_percent r)%float = false)
                    (TeamDashboardResponse.sprint_rows resp')).
  { destruct include_done_only; run_dashboard Hg Hd;
      cbn [TeamDashboardResponse.sprint_rows];
      repeat constructor. }
  destruct E as (resp' & Hok' & Hall).
  rewrite Hok in Hok'. injection Hok' as <-. exact Hall.
Qed.

(** The guard [if committed else 0]: were [committed] zero (it takes
    [base_points = -5] at offset 0, which the route never passes), the two
    percentages are 0 and no division is attempted. *)
Lemma sprint_figures_committed_zero (sprint_name : string) (start end_ : date) :
  exists s,
    sprint_figures (-5) 0 sprint_name start end_ no_series = Ok s /\
    map SprintRow.committed (rows s) = [0%float] /\
    map SprintRow.completion_percent (rows s) = [0%float] /\
    map SprintRow.rollover_percent (rows s) = [0%float].
Proof.
  eapply Ok_intro; [vm_compute; reflexivity | ].
  repeat split.
Qed.

(** The four series are parallel: record by record they carry the same
    label and the same committed and completed points. *)
Lemma series_are_parallel (team_id team_name grouping : string)
    (include_done_only : bool) (item_types : list string) (today : date) :
  valid_input grouping today ->
  exists resp,
    get_team_dashboard team_id team_name grouping include_done_only item_types
      today = Ok resp /\
    map (fun v => (VelocityPoint.key v, VelocityPoint.committed v,
                   VelocityPoint.completed v))
        (TeamDashboardResponse.velocity resp)
    = map (fun r => (SprintRow.sprint r, SprintRow.committed r,
                     SprintRow.completed r))
          (TeamDashboardResponse.sprint_rows resp) /\
    map (fun c => (CommitmentPoint.sprint c, CommitmentPoint.committed c,
                   CommitmentPoint.completed c, CommitmentPoint.rollover c,
                   CommitmentPoint.percent c))
        (TeamDashboardResponse.commitment_vs_completion resp)
    = map (fun r => (SprintRow.sprint r, SprintRow.committed r,
                     SprintRow.completed r, SprintRow.rollover_points r,
                     SprintRow.completion_percent r))
          (TeamDashboardResponse.sprint_rows resp) /\
    map (fun p => (RolloverPoint.sprint p, RolloverPoint.committed p,
                   RolloverPoint.rolled p, RolloverPoint.percent p))
        (TeamDashboardResponse.rollover_trend resp)
    = map (fun r => (SprintRow.sprint r, SprintRow.committed r,
                     SprintRow.rollover_points r, SprintRow.rollover_percent r))
          (TeamDashboardResponse.sprint_rows resp).
Proof.
  intros Hvalid. destruct include_done_only; run_valid Hvalid; repeat split.
Qed.

(** ** The claims *)

Section Claims.

Variables team_id team_name grouping : string.
Variable include_done_only : bool.
Variable item_types : list string.
Variable today : date.
Hypothesis Hvalid : valid_input grouping today.


(** C1 (the code departs from it): every series has eight records, but the
    labels come out ascending, 'Sprint 1' first and 'Sprint 8' last, while
    the dates are the most recent first: the record labelled 'Sprint 1'
    starts two weeks before [today] and 'Sprint 8' sixteen weeks before. *)
Theorem team_dashboard_labels_ascending :
  exists resp,
    get_team_dashboard team_id team_name grouping include_done_only item_types
      today = Ok resp /\
    map VelocityPoint.key (TeamDashboardResponse.velocity resp)
      = labels_ascending /\
    map CommitmentPoint.sprint (TeamDashboardResponse.commitment_vs_completion resp)
      = labels_ascending /\
    map RolloverPoint.sprint (TeamDashboardResponse.rollover_trend resp)
      = labels_ascending /\
    map SprintRow.sprint (TeamDashboardResponse.sprint_rows resp)
      = labels_ascending /\
    map SprintRow.start (TeamDashboardResponse.sprint_rows resp)
      = map (sprint_start today) [7; 6; 5; 4; 3; 2; 1; 0] /\
    labels_ascending <> labels_descending.
Proof.
  destruct include_done_only; run_valid Hvalid;
    (repeat split; [discriminate]).
Qed.

(** C2 (amended): [dor_compliance_percent] of the row generated at offset
    [i] is [round(80 + (i%5)*3 - (i%2), 1)], stored without any clamping,
    and on the eight offsets it lies between 79 and 92: it never exceeds
    100. *)
Theorem dor_compliance_formula_and_range :
  exists resp,
    get_team_dashboard team_id team_name grouping include_done_only item_types
      today = Ok resp /\
    forall i, (i < 8)%nat ->
      exists r, generated_row resp i = Some r /\
        SprintRow.dor_compliance_percent r
          = Py.as_float
              (Py.round (Py.Int (80 + (Z.of_nat i mod 5) * 3 - (Z.of_nat i mod 2))) 1) /\
        (79 <=? SprintRow.dor_compliance_percent r)%float = true /\
        (SprintRow.dor_compliance_percent r <=? 92)%float = true /\
        (100 <? SprintRow.dor_compliance_percent r)%float = false.
Proof.
  destruct include_done_only; run_valid Hvalid;
    each_offset ltac:(vm_compute; repeat split).
Qed.

(** C3: in every generated row, [rollover_points] is
    [max(0, committed - completed)] rounded to 1 decimal and
    [completion_percent] is [round(100 * completed / committed, 1)] (0 when
    [committed] is 0), both computed from the row's own fields. *)
Theorem rollover_and_completion_percent_formulas :
  exists resp,
    get_team_dashboard team_id team_name grouping include_done_only item_types
      today = Ok resp /\
    forall i, (i < 8)%nat ->
      exists r, generated_row resp i = Some r /\
        SprintRow.rollover_points r
          = spec_rollover (SprintRow.committed r) (SprintRow.completed r) /\
        SprintRow.completion_percent r
          = spec_completion_percent (SprintRow.committed r) (SprintRow.completed r).
Proof.
  destruct include_done_only; run_valid Hvalid;
    each_offset ltac:(vm_compute; repeat split).
Qed.

(** C4: in every generated row, [0 <= completed <= committed + 3]. *)
Theorem completed_between_0_and_committed_plus_3 :
  exists resp,
    get_team_dashboard team_id team_name grouping include_done_only item_types
      today = Ok resp /\
    forall i, (i < 8)%nat ->
      exists r, generated_row resp i = Some r /\
        (0 <=? SprintRow.completed r)%float = true /\
        (SprintRow.completed r <=? SprintRow.committed r + 3)%float = true.
Proof.
  destruct include_done_only; run_valid Hvalid;
    each_offset ltac:(vm_compute; repeat split).
Qed.

(** C5: the KPI labelled 'Commitment completion %' is
    [round(sum(completed) / sum(committed) * 100, 1)] over the eight records
    of the commitment series of the response. *)
Theorem commitment_completion_kpi :
  exists resp,
    get_team_dashboard team_id team_name grouping include_done_only item_types
      today = Ok resp /\
    List.length (TeamDashboardResponse.commitment_vs_completion resp) = 8%nat /\
    kpi_value resp "Commitment completion %"
      = Some (spec_commitment_completion
                (TeamDashboardResponse.commitment_vs_completion resp)).
Proof.
  destruct include_done_only; run_valid Hvalid;
    (split; [reflexivity | vm_compute; reflexivity]).
Qed.

(** C6: two valid calls that agree on [include_done_only], [team_name] and
    the date give the same response, whatever their [team_id], accepted
    [grouping] and [item_types]; the response carries [team_name] as it
    was given. *)
Theorem response_ignores_team_id_grouping_item_types
    (team_id' grouping' : string) (item_types' : list string)
    (Hvalid' : valid_input grouping' today) :
  exists resp,
    get_team_dashboard team_id team_name grouping include_done_only item_types
      today = Ok resp /\
    get_team_dashboard team_id' team_name grouping' include_done_only item_types'
      today = Ok resp /\
    TeamDashboardResponse.team_name resp = team_name.
Proof.
  assert (E : get_team_dashboard team_id' team_name grouping' include_done_only
                item_types' today
              = get_team_dashboard team_id team_name grouping include_done_only
                  item_types today).
  { unfold get_team_dashboard.
    rewrite (proj1 Hvalid), (proj1 Hvalid'). reflexivity. }
  rewrite E.
  destruct include_done_only; run_valid Hvalid; (split; reflexivity).
Qed.

(** C7: [scope_change] is the triple (3.2, 1.4, 6.5) on every valid input. *)
Theorem scope_change_is_constant :
  exists resp,
    get_team_dashboard team_id team_name grouping include_done_only item_types
      today = Ok resp /\
    TeamDashboardResponse.scope_change resp
      = ScopeSummary.new_ 3.2%float 1.4%float 6.5%float.
Proof.
  destruct include_done_only; run_valid Hvalid; reflexivity.
Qed.

(** C8: with [include_done_only = false], the row generated at offset 3
    has committed 40, completed 30, rollover 10.0 and completion percent
    75.0, and the row generated at offset 0 has committed 40, completed 40,
    rollover 0.0 and completion percent 100.0. *)
Theorem offsets_3_and_0_without_done_only :
  exists resp r3 r0,
    get_team_dashboard team_id team_name grouping false item_types today
      = Ok resp /\
    generated_row resp 3 = Some r3 /\
    SprintRow.committed r3 = 40%float /\
    SprintRow.completed r3 = 30%float /\
    SprintRow.rollover_points r3 = 10.0%float /\
    SprintRow.completion_percent r3 = 75.0%float /\
    generated_row resp 0 = Some r0 /\
    SprintRow.committed r0 = 40%float /\
    SprintRow.completed r0 = 40%float /\
    SprintRow.rollover_points r0 = 0.0%float /\
    SprintRow.completion_percent r0 = 100.0%float.
Proof.
  cut (exists resp,
         get_team_dashboard team_id team_name grouping false item_types today
           = Ok resp /\
         exists r3 r0,
           generated_row resp 3 = Some r3 /\
           SprintRow.committed r3 = 40%float /\
           SprintRow.completed r3 = 30%float /\
           SprintRow.rollover_points r3 = 10.0%float /\
           SprintRow.completion_percent r3 = 75.0%float /\
           generated_row resp 0 = Some r0 /\
           SprintRow.committed r0 = 40%float /\
           SprintRow.completed r0 = 40%float /\
           SprintRow.rollover_points r0 = 0.0%float /\
           SprintRow.completion_percent r0 = 100.0%float).
  { intros (resp & Hok & r3 & r0 & H). exists resp, r3, r0.
    split; [exact Hok | exact H]. }
  run_valid Hvalid.
  do 2 eexists. repeat split.
Qed.

(** C9: in every generated row, [completed <= committed], [rollover_points]
    is exactly [committed - completed], and [completion_percent <= 100]. *)
Theorem completed_at_most_committed :
  exists resp,
    get_team_dashboard team_id team_name grouping include_done_only item_types
      today = Ok resp /\
    forall i, (i < 8)%nat ->
      exists r, generated_row resp i = Some r /\
        (SprintRow.completed r <=? SprintRow.committed r)%float = true /\
        SprintRow.rollover_points r
          = (SprintRow.committed r - SprintRow.completed r)%float /\
        (SprintRow.completion_percent r <=? 100)%float = true.
Proof.
  destruct include_done_only; run_valid Hvalid;
    each_offset ltac:(vm_compute; repeat split).
Qed.

(** C10: the KPI labelled 'Throughput' is 10.0 and the KPI labelled
    'Bug ratio' is 0.67, whatever the input. *)
Theorem throughput_and_bug_ratio_kpis :
  exists resp,
    get_team_dashboard team_id team_name grouping include_done_only item_types
      today = Ok resp /\
    kpi_value resp "Throughput" = Some 10.0%float /\
    kpi_value resp "Bug ratio" = Some 0.67%float.
Proof.
  destruct include_done_only; run_valid Hvalid; (split; reflexivity).
Qed.

End Claims.

(** ** The negation of C2 as it is written

    No call that produces a response has a row whose
    [dor_compliance_percent] exceeds 100. *)
Lemma dor_compliance_exceeds_100_never :
  ~ exists (team_id team_name grouping : string) (include_done_only : bool)
           (item_types : list string) (today : date)
           (resp : TeamDashboardResponse.t) (r : SprintRow.t),
      get_team_dashboard team_id team_name grouping include_done_only item_types
        today = Ok resp /\
      In r (TeamDashboardResponse.sprint_rows resp) /\
      (100 <? SprintRow.dor_compliance_percent r)%float = true.
Proof.
  intros (team_id & team_name & grouping & include_done_only & item_types
          & today & resp & r & Hok & Hin & Hgt).
  pose proof (dor_compliance_not_above_100 _ _ _ _ _ _ _ Hok) as Hall.
  rewrite Forall_forall in Hall. specialize (Hall r Hin).
  rewrite Hall in Hgt. discriminate Hgt.
Qed.

(** ** The claims on a concrete call

    The default query, served on [example_today]; for the independence
    claim the second call asks for another team, grouping and item types. *)

Ltac valid_by_computation :=
  split; [reflexivity | unfold date_min, date_max, example_today; lia].

Lemma team_dashboard_labels_ascending_witness :
  valid_input default_grouping example_today /\
  (exists resp,
      get_team_dashboard default_team_id default_team_name default_grouping false default_item_types
        example_today = Ok resp /\
      map VelocityPoint.key (TeamDashboardResponse.velocity resp)
        = labels_ascending /\
      map CommitmentPoint.sprint (TeamDashboardResponse.commitment_vs_completion resp)
        = labels_ascending /\
      map RolloverPoint.sprint (TeamDashboardResponse.rollover_trend resp)
        = labels_ascending /\
      map SprintRow.sprint (TeamDashboardResponse.sprint_rows resp)
        = labels_ascending /\
      map SprintRow.start (TeamDashboardResponse.sprint_rows resp)
        = map (sprint_start example_today) [7; 6; 5; 4; 3; 2; 1; 0] /\
      labels_ascending <> labels_descending).
Proof.
  split; [valid_by_computation | ].
  apply team_dashboard_labels_ascending; valid_by_computation.
Defined.

Lemma dor_compliance_formula_and_range_witness :
  valid_input default_grouping example_today /\
  (exists resp,
      get_team_dashboard default_team_id default_team_name default_grouping false default_item_types
        example_today = Ok resp /\
      forall i, (i < 8)%nat ->
        exists r, generated_row resp i = Some r /\
          SprintRow.dor_compliance_percent r
            = Py.as_float
                (Py.round (Py.Int (80 + (Z.of_nat i mod 5) * 3 - (Z.of_nat i mod 2))) 1) /\
          (79 <=? SprintRow.dor_compliance_percent r)%float = true /\
          (SprintRow.dor_compliance_percent r <=? 92)%float = true /\
          (100 <? SprintRow.dor_compliance_percent r)%float = false).
Proof.
  split; [valid_by_computation | ].
  apply dor_compliance_formula_and_range; valid_by_computation.
Defined.

Lemma rollover_and_completion_percent_formulas_witness :
  valid_input default_grouping example_today /\
  (exists resp,
      get_team_dashboard default_team_id default_team_name default_grouping false default_item_types
        example_today = Ok resp /\
      forall i, (i < 8)%nat ->
        exists r, generated_row resp i = Some r /\
          SprintRow.rollover_points r
            = spec_rollover (SprintRow.committed r) (SprintRow.completed r) /\
          SprintRow.completion_percent r
            = spec_completion_percent (SprintRow.committed r) (SprintRow.completed r)).
Proof.
  split; [valid_by_computation | ].
  apply rollover_and_completion_percent_formulas; valid_by_computation.
Defined.

Lemma completed_between_0_and_committed_plus_3_witness :
  valid_input default_grouping example_today /\
  (exists resp,
      get_team_dashboard default_team_id default_team_name default_grouping false default_item_types
        example_today = Ok resp /\
      forall i, (i < 8)%nat ->
        exists r, generated_row resp i = Some r /\
          (0 <=? SprintRow.completed r)%float = true /\
          (SprintRow.completed r <=? SprintRow.committed r + 3)%float = true).
Proof.
  split; [valid_by_computation | ].
  apply completed_between_0_and_committed_plus_3; valid_by_computation.
Defined.

Lemma commitment_completion_kpi_witness :
  valid_input default_grouping example_today /\
  (exists resp,
      get_team_dashboard default_team_id default_team_name default_grouping false default_item_types
        example_today = Ok resp /\
      List.length (TeamDashboardResponse.commitment_vs_completion resp) = 8%nat /\
      kpi_value resp "Commitment completion %"
        = Some (spec_commitment_completion
                  (TeamDashboardResponse.commitment_vs_completion resp))).
Proof.
  split; [valid_by_computation | ].
  apply commitment_completion_kpi; valid_by_computation.
Defined.

Lemma response_ignores_team_id_grouping_item_types_witness :
  valid_input default_grouping example_today /\
  valid_input "By month" example_today /\
  (exists resp,
      get_team_dashboard default_team_id default_team_name default_grouping false default_item_types
        example_today = Ok resp /\
      get_team_dashboard "team-2" default_team_name "By month" false ["Bugs"]
        example_today = Ok resp /\
      TeamDashboardResponse.team_name resp = default_team_name).
Proof.
  split; [valid_by_computation | split; [valid_by_computation | ]].
  apply response_ignores_team_id_grouping_item_types; valid_by_computation.
Defined.

Lemma scope_change_is_constant_witness :
  valid_input default_grouping example_today /\
  (exists resp,
      get_team_dashboard default_team_id default_team_name default_grouping false default_item_types
        example_today = Ok resp /\
      TeamDashboardResponse.scope_change resp
        = ScopeSummary.new_ 3.2%float 1.4%float 6.5%float).
Proof.
  split; [valid_by_computation | ].
  apply scope_change_is_constant; valid_by_computation.
Defined.

Lemma offsets_3_and_0_without_done_only_witness :
  valid_input default_grouping example_today /\
  (exists resp r3 r0,
      get_team_dashboard default_team_id default_team_name default_grouping false default_item_types example_today
        = Ok resp /\
      generated_row resp 3 = Some r3 /\
      SprintRow.committed r3 = 40%float /\
      SprintRow.completed r3 = 30%float /\
      SprintRow.rollover_points r3 = 10.0%float /\
      SprintRow.completion_percent r3 = 75.0%float /\
      generated_row resp 0 = Some r0 /\
      SprintRow.committed r0 = 40%float /\
      SprintRow.completed r0 = 40%float /\
      SprintRow.rollover_points r0 = 0.0%float /\
      SprintRow.completion_percent r0 = 100.0%float).
Proof.
  split; [valid_by_computation | ].
  apply offsets_3_and_0_without_done_only; valid_by_computation.
Defined.

Lemma completed_at_most_committed_witness :
  valid_input default_grouping example_today /\
  (exists resp,
      get_team_dashboard default_team_id default_team_name default_grouping false default_item_types
        example_today = Ok resp /\
      forall i, (i < 8)%nat ->
        exists r, generated_row resp i = Some r /\
          (SprintRow.completed r <=? SprintRow.committed r)%float = true /\
          SprintRow.rollover_points r
            = (SprintRow.committed r - SprintRow.completed r)%float /\
          (SprintRow.completion_percent r <=? 100)%float = true).
Proof.
  split; [valid_by_computation | ].
  apply completed_at_most_committed; valid_by_computation.
Defined.

Lemma throughput_and_bug_ratio_kpis_witness :
  valid_input default_grouping example_today /\
  (exists resp,
      get_team_dashboard default_team_id default_team_name default_grouping false default_item_types
        example_today = Ok resp /\
      kpi_value resp "Throughput" = Some 10.0%float /\
      kpi_value resp "Bug ratio" = Some 0.67%float).
Proof.
  split; [valid_by_computation | ].
  apply throughput_and_bug_ratio_kpis; valid_by_computation.
Defined.

(** * Beyond the claims *)

(** ** Strings *)

Lemma PyStr_len_app (s t : string) :
  PyStr.len (s ++ t) = (PyStr.len s + PyStr.len t)%nat.
Proof.
  induction s as [|c s IH]; simpl.
  - reflexivity.
  - destruct (PyStr.continuation c); rewrite IH; reflexivity.
Qed.

Lemma PyStr_len_take (n : nat) (s : string) :
  PyStr.len (PyStr.take n s) = Nat.min n (PyStr.len s).
Proof.
  revert n. induction s as [|c s IH]; intros n; simpl.
  - symmetry. apply Nat.min_0_r.
  - destruct (PyStr.continuation c) eqn:Hc.
    + simpl. rewrite Hc. apply IH.
    + destruct n as [|n]; simpl.
      * reflexivity.
      * rewrite Hc, IH. reflexivity.
Qed.

(** ** The diagnostic route *)

Section Diagnostics.

Variable imported : TestDatabase.import_outcome.
Variables DATABASE_URL DATABASE_NAME : option string.

(** X1: the [database_url] and [database_name] entries of the answer only
    say whether the environment variable is set and not empty: whatever the
    database branch stored there is overwritten, and neither is ever
    [None]. *)
Theorem test_database_reports_environment_only :
  TestDatabase.database_url
    (TestDatabase.test_database imported DATABASE_URL DATABASE_NAME)
  = Some (if TestDatabase.getenv_truthy DATABASE_URL
          then "✅ Set" else "❌ Not Set") /\
  TestDatabase.database_name
    (TestDatabase.test_database imported DATABASE_URL DATABASE_NAME)
  = Some (if TestDatabase.getenv_truthy DATABASE_NAME
          then "✅ Set" else "❌ Not Set").
Proof.
  split; reflexivity.
Qed.

(** X2: at most ten collection names are returned, and a non-empty list
    means that the listing succeeded: it is then the first ten names, the
    status is 'Connected' and the database is reported as working. *)
Theorem test_database_collections :
  let r := TestDatabase.test_database imported DATABASE_URL DATABASE_NAME in
  (List.length (TestDatabase.collections r) <= 10)%nat /\
  (TestDatabase.collections r <> [] ->
   exists db names,
     imported = TestDatabase.Imported (Some db) /\
     TestDatabase.list_collection_names db = inr names /\
     TestDatabase.collections r = firstn 10 names /\
     TestDatabase.connection_status r = "Connected" /\
     TestDatabase.database r = "✅ Connected & Working").
Proof.
  destruct imported as [|e|[[nm ls]|]]; cbn zeta;
    try (split; [simpl; lia | intros H; exfalso; apply H; reflexivity]).
  destruct nm as [|v|e]; destruct ls as [e'|cs];
    try (split; [simpl; lia | intros H; exfalso; apply H; reflexivity]).
  - split; [apply firstn_le_length | ].
    intros _. eexists _, cs. repeat split.
  - split; [apply firstn_le_length | ].
    intros _. eexists _, cs. repeat split.
Qed.

(** X3: [backend] always reads running, and [connection_status] is
    'Connected' exactly when the module was imported, [db] is not [None]
    and reading [db.name] did not raise (a failing listing still reports
    'Connected'); otherwise it is 'Not Connected'. *)
Theorem test_database_connection_status :
  let r := TestDatabase.test_database imported DATABASE_URL DATABASE_NAME in
  TestDatabase.backend r = "✅ Running" /\
  (TestDatabase.connection_status r = "Connected" \/
   TestDatabase.connection_status r = "Not Connected") /\
  (TestDatabase.connection_status r = "Connected" <->
   exists db, imported = TestDatabase.Imported (Some db) /\
              forall e, TestDatabase.name db <> TestDatabase.Raises e).
Proof.
  cbn zeta.
  destruct imported as [|e|[[nm ls]|]].
  - split; [reflexivity | ]. split; [right; reflexivity | ].
    split; [discriminate | intros (db & H & _); discriminate H].
  - split; [reflexivity | ]. split; [right; reflexivity | ].
    split; [discriminate | intros (db & H & _); discriminate H].
  - destruct nm as [|v|e].
    + split; [destruct ls; reflexivity | ].
      split; [left; destruct ls; reflexivity | ].
      split; [ | intros _; destruct ls; reflexivity].
      intros _. eexists. split; [reflexivity | ]. intros e. discriminate.
    + split; [destruct ls; reflexivity | ].
      split; [left; destruct ls; reflexivity | ].
      split; [ | intros _; destruct ls; reflexivity].
      intros _. eexists. split; [reflexivity | ]. intros e. discriminate.
    + split; [reflexivity | ]. split; [right; reflexivity | ].
      split; [discriminate | ].
      intros (db & H & Hn). injection H as <-.
      exfalso. exact (Hn e eq_refl).
  - split; [reflexivity | ]. split; [right; reflexivity | ].
    split; [discriminate | intros (db & H & _); discriminate H].
Qed.

(** X4: whatever text the exceptions carry, the [database] entry is at most
    75 characters long, because the text is cut to 50 characters. *)
Theorem test_database_message_is_bounded :
  (PyStr.len
     (TestDatabase.database
        (TestDatabase.test_database imported DATABASE_URL DATABASE_NAME))
   <= 75)%nat.
Proof.
  assert (Hcut : forall (p e : string) (k : nat),
             (PyStr.len p <= k)%nat ->
             (PyStr.len (p ++ PyStr.take 50 e) <= k + 50)%nat).
  { intros p e k Hp. rewrite PyStr_len_app, PyStr_len_take. lia. }
  destruct imported as [|e|[[nm ls]|]].
  - vm_compute. lia.
  - apply (Hcut _ e 25%nat). vm_compute. lia.
  - destruct nm as [|v|e]; destruct ls as [e'|cs];
      first [ apply (Hcut _ e 25%nat); vm_compute; lia
            | apply (Hcut _ e' 25%nat); vm_compute; lia
            | vm_compute; lia ].
  - vm_compute. lia.
Qed.

End Diagnostics.

(** ** The dashboard route: outcome, dates and figures *)


Lemma get_team_dashboard_Ok (team_id team_name grouping : string)
    (include_done_only : bool) (item_types : list string) (today : date) :
  grouping_accepted grouping = true ->
  date_min + 112 <= today <= date_max + 1 ->
  exists resp,
    get_team_dashboard team_id team_name grouping include_done_only item_types
      today = Ok resp /\ True.
Proof.
  intros Hg Hd. destruct include_done_only; run_dashboard Hg Hd; exact I.
Qed.

Lemma get_team_dashboard_too_early (team_id team_name grouping : string)
    (include_done_only : bool) (item_types : list string) (today : date) :
  grouping_accepted grouping = true ->
  today < date_min + 112 ->
  get_team_dashboard team_id team_name grouping include_done_only item_types
    today = Raise OverflowError.
Proof.
  intros Hg Hd. unfold get_team_dashboard. rewrite Hg.
  unfold team_dashboard. cbv zeta.
  change (Py.range 8) with [0; 1; 2; 3; 4; 5; 6; 7].
  cbn [foldM]. unfold sprint_iteration at 1. cbv zeta.
  unfold date_sub, date_add at 1. cbv zeta.
  replace (date_min <=? today + - timedelta ((8 - 0) * 2) 0) with false.
  - reflexivity.
  - symmetry. apply Z.leb_gt. unfold timedelta, date_min in *. lia.
Qed.

(** X5: on a calendar day, the route answers with a validation error when
    [grouping] is not one of the three labels, with [OverflowError] when
    [today] is within the first 112 days of the calendar, and with a
    response otherwise; it never ends in [ZeroDivisionError]. *)
Theorem get_team_dashboard_outcome (team_id team_name grouping : string)
    (include_done_only : bool) (item_types : list string) (today : date) :
  date_min <= today <= date_max ->
  raised (get_team_dashboard team_id team_name grouping include_done_only
            item_types today)
  = if grouping_accepted grouping
    then if today <? date_min + 112 then Some OverflowError else None
    else Some RequestValidationError.
Proof.
  intros Hday. destruct (grouping_accepted grouping) eqn:Hg.
  - destruct (Z.ltb_spec today (date_min + 112)) as [Hlt|Hge].
    + rewrite get_team_dashboard_too_early by assumption. reflexivity.
    + destruct (get_team_dashboard_Ok team_id team_name grouping
                  include_done_only item_types today Hg) as (resp & -> & _).
      * lia.
      * reflexivity.
  - unfold get_team_dashboard. rewrite Hg. reflexivity.
Qed.

Section Dashboard.

Variables team_id team_name grouping : string.
Variable include_done_only : bool.
Variable item_types : list string.
Variable today : date.
Hypothesis Hvalid : valid_input grouping today.

(** X6: the record at position [k] of the output (counted from 1) covers
    the fourteen days from [today - 14 k] to [today - 14 k + 13]: the
    sprints are listed most recent first, they follow one another without
    gap or overlap, and the most recent one ends the day before [today]. *)
Theorem sprint_windows_tile_the_last_sixteen_weeks :
  exists resp,
    get_team_dashboard team_id team_name grouping include_done_only item_types
      today = Ok resp /\
    map (fun r => (SprintRow.start r, SprintRow.end_ r))
        (TeamDashboardResponse.sprint_rows resp)
    = map (fun k => (today - 14 * k, today - 14 * k + 13))
          [1; 2; 3; 4; 5; 6; 7; 8] /\
    map (fun v => (VelocityPoint.start v, VelocityPoint.end_ v))
        (TeamDashboardResponse.velocity resp)
    = map (fun k => (today - 14 * k, today - 14 * k + 13))
          [1; 2; 3; 4; 5; 6; 7; 8].
Proof.
  assert (E : map (fun k => (today - 14 * k, today - 14 * k + 13))
                  [1; 2; 3; 4; 5; 6; 7; 8]
              = map (fun i => (sprint_start today i, sprint_end today i))
                    [7; 6; 5; 4; 3; 2; 1; 0]).
  { unfold sprint_end, sprint_start, timedelta. cbn [map].
    repeat (apply (f_equal2 cons); [apply (f_equal2 pair); lia | ]).
    reflexivity. }
  rewrite E.
  destruct include_done_only; run_valid Hvalid; (split; reflexivity).
Qed.

(** X7: in every generated row, [rollover_percent] is
    [round(100 * rollover_points / committed, 1)], and it is the complement
    of [completion_percent]: the two add up to exactly 100. *)
Theorem rollover_percent_complements_completion_percent :
  exists resp,
    get_team_dashboard team_id team_name grouping include_done_only item_types
      today = Ok resp /\
    forall i, (i < 8)%nat ->
      exists r, generated_row resp i = Some r /\
        SprintRow.rollover_percent r
          = Py.float_round
              (100 * SprintRow.rollover_points r / SprintRow.committed r) 1 /\
        (SprintRow.completion_percent r + SprintRow.rollover_percent r)%float
          = 100%float.
Proof.
  destruct include_done_only; run_valid Hvalid;
    each_offset ltac:(vm_compute; repeat split).
Qed.

(** X8: in the row generated at offset [i], [bugs_created] is
    [5 + (i%4)*2] and [items_reopened] is [i%3]; so bugs are between 5 and
    11, reopened items between 0 and 2, and the eight rows count 64 bugs. *)
Theorem bugs_created_and_items_reopened :
  exists resp,
    get_team_dashboard team_id team_name grouping include_done_only item_types
      today = Ok resp /\
    fold_right Z.add 0
      (map SprintRow.bugs_created (TeamDashboardResponse.sprint_rows resp)) = 64 /\
    forall i, (i < 8)%nat ->
      exists r, generated_row resp i = Some r /\
        SprintRow.bugs_created r = 5 + (Z.of_nat i mod 4) * 2 /\
        SprintRow.items_reopened r = Z.of_nat i mod 3 /\
        5 <= SprintRow.bugs_created r <= 11 /\
        0 <= SprintRow.items_reopened r <= 2.
Proof.
  destruct include_done_only; run_valid Hvalid;
    (split; [reflexivity | ]);
    each_offset ltac:(vm_compute; repeat split; discriminate).
Qed.

(** X9: the KPI labelled 'Velocity' is the mean of [completed] over the
    velocity series of the response, rounded to 1 decimal. *)
Theorem velocity_kpi_is_mean_completed :
  exists resp,
    get_team_dashboard team_id team_name grouping include_done_only item_types
      today = Ok resp /\
    kpi_value resp "Velocity"
    = Some (Py.float_round
              (float_sum (map VelocityPoint.completed
                              (TeamDashboardResponse.velocity resp))
               / float_len (TeamDashboardResponse.velocity resp)) 1).
Proof.
  destruct include_done_only; run_valid Hvalid; vm_compute; reflexivity.
Qed.

(** X10: the KPI labelled 'Rollover rate %' is
    [round(sum(rollover) / sum(committed) * 100, 1)] over the commitment
    series of the response, and with the KPI 'Commitment completion %' it
    adds up to exactly 100. *)
Theorem rollover_rate_kpi :
  exists resp,
    get_team_dashboard team_id team_name grouping include_done_only item_types
      today = Ok resp /\
    exists rate completion,
      kpi_value resp "Rollover rate %" = Some rate /\
      kpi_value resp "Commitment completion %" = Some completion /\
      rate = Py.float_round
               (float_sum (map CommitmentPoint.rollover
                               (TeamDashboardResponse.commitment_vs_completion resp))
                / float_sum (map CommitmentPoint.committed
                                 (TeamDashboardResponse.commitment_vs_completion resp))
                * 100) 1 /\
      (completion + rate)%float = 100%float.
Proof.
  destruct include_done_only; run_valid Hvalid;
    (do 2 eexists; split; [reflexivity | split; [reflexivity | ]];
     vm_compute; split; reflexivity).
Qed.

(** X11: the KPI labelled 'DoR compliance %' is the mean of
    [dor_compliance_percent] over the rows, rounded to 1 decimal, that is
    84.4 whatever the input; the KPI 'Bug ratio' is the number of bugs of
    the rows divided by [max(1, 12 * len(rows))], rounded to 2 decimals. *)
Theorem dor_and_bug_ratio_kpis :
  exists resp,
    get_team_dashboard team_id team_name grouping include_done_only item_types
      today = Ok resp /\
    kpi_value resp "DoR compliance %"
    = Some (Py.float_round
              (float_sum (map SprintRow.dor_compliance_percent
                              (TeamDashboardResponse.sprint_rows resp))
               / float_len (TeamDashboardResponse.sprint_rows resp)) 1) /\
    kpi_value resp "DoR compliance %" = Some 84.4%float /\
    kpi_value resp "Bug ratio"
    = Some (Py.float_round
              (Py.float_of_Z
                 (fold_right Z.add 0
                    (map SprintRow.bugs_created
                         (TeamDashboardResponse.sprint_rows resp)))
               / Py.float_of_Z
                   (Z.max 1
                      (Z.of_nat (List.length (TeamDashboardResponse.sprint_rows resp))
                       * 12))) 2).
Proof.
  destruct include_done_only; run_valid Hvalid; vm_compute; repeat split.
Qed.

(** X12: the response carries six KPIs, in a fixed order and with distinct
    labels; each has a help text, and the deltas are the constants 1.2,
    -0.5, 2.1, -1.4, 0.8 and -0.1, whatever the figures. *)
Theorem kpis_labels_and_deltas :
  exists resp,
    get_team_dashboard team_id team_name grouping include_done_only item_types
      today = Ok resp /\
    map KPI.label (TeamDashboardResponse.kpis resp)
    = ["Velocity"; "Throughput"; "Commitment completion %"; "Rollover rate %";
       "DoR compliance %"; "Bug ratio"] /\
    NoDup (map KPI.label (TeamDashboardResponse.kpis resp)) /\
    map KPI.delta (TeamDashboardResponse.kpis resp)
    = [Some 1.2%float; Some (-0.5)%float; Some 2.1%float; Some (-1.4)%float;
       Some 0.8%float; Some (-0.1)%float] /\
    Forall (fun k => KPI.help k <> None) (TeamDashboardResponse.kpis resp).
Proof.
  destruct include_done_only; run_valid Hvalid;
    (split; [reflexivity | ]; split; [ | split; [reflexivity | ]]);
    try (repeat constructor; discriminate).
  all: cbn [map TeamDashboardResponse.kpis KPI.label];
    repeat (constructor; [cbn [In]; intuition discriminate | ]);
    constructor.
Qed.


(** X14: the day of the call only moves the dates: two valid calls that
    differ in [today] return the same KPIs, scope summary, commitment and
    rollover series, and rows that agree on every field but the dates. *)
Theorem figures_do_not_depend_on_today (today' : date)
    (Hvalid' : valid_input grouping today') :
  exists resp resp',
    get_team_dashboard team_id team_name grouping include_done_only item_types
      today = Ok resp /\
    get_team_dashboard team_id team_name grouping include_done_only item_types
      today' = Ok resp' /\
    TeamDashboardResponse.kpis resp = TeamDashboardResponse.kpis resp' /\
    TeamDashboardResponse.scope_change resp
      = TeamDashboardResponse.scope_change resp' /\
    TeamDashboardResponse.commitment_vs_completion resp
      = TeamDashboardResponse.commitment_vs_completion resp' /\
    TeamDashboardResponse.rollover_trend resp
      = TeamDashboardResponse.rollover_trend resp' /\
    map row_figures (TeamDashboardResponse.sprint_rows resp)
      = map row_figures (TeamDashboardResponse.sprint_rows resp').
Proof.
  pose proof (proj1 Hvalid) as Hg.
  pose proof (valid_input_dates _ _ Hvalid) as Hd.
  pose proof (valid_input_dates _ _ Hvalid') as Hd'.
  cut (exists resp,
         get_team_dashboard team_id team_name grouping include_done_only
           item_types today = Ok resp /\
         exists resp',
           get_team_dashboard team_id team_name grouping include_done_only
             item_types today' = Ok resp' /\
           TeamDashboardResponse.kpis resp = TeamDashboardResponse.kpis resp' /\
           TeamDashboardResponse.scope_change resp
             = TeamDashboardResponse.scope_change resp' /\
           TeamDashboardResponse.commitment_vs_completion resp
             = TeamDashboardResponse.commitment_vs_completion resp' /\
           TeamDashboardResponse.rollover_trend resp
             = TeamDashboardResponse.rollover_trend resp' /\
           map row_figures (TeamDashboardResponse.sprint_rows resp)
             = map row_figures (TeamDashboardResponse.sprint_rows resp')).
  { intros (r & Hr & r' & Hr' & H). exists r, r'. auto. }
  unfold get_team_dashboard. rewrite Hg.
  unfold team_dashboard. cbv zeta.
  rewrite (loop_dates _ today _ Hd), (loop_dates _ today' _ Hd').
  generalize (sprint_start today) (sprint_end today)
             (sprint_start today') (sprint_end today').
  intros s e s' e'.
  destruct include_done_only;
    (eapply Ok_intro; [vm_compute; reflexivity | ];
     eapply Ok_intro; [vm_compute; reflexivity | ];
     repeat split).
Qed.

End Dashboard.

(** ** The same facts on a concrete call *)

Lemma get_team_dashboard_outcome_witness :
  date_min <= example_today <= date_max /\
  raised (get_team_dashboard default_team_id default_team_name default_grouping
            false default_item_types example_today)
  = if grouping_accepted default_grouping
    then if example_today <? date_min + 112 then Some OverflowError else None
    else Some RequestValidationError.
Proof.
  split; [unfold date_min, date_max, example_today; lia | ].
  apply get_team_dashboard_outcome.
  unfold date_min, date_max, example_today; lia.
Defined.

Lemma sprint_windows_tile_the_last_sixteen_weeks_witness :
  valid_input default_grouping example_today /\
  (exists resp,
      get_team_dashboard default_team_id default_team_name default_grouping false default_item_types
        example_today = Ok resp /\
      map (fun r => (SprintRow.start r, SprintRow.end_ r))
          (TeamDashboardResponse.sprint_rows resp)
      = map (fun k => (example_today - 14 * k, example_today - 14 * k + 13))
            [1; 2; 3; 4; 5; 6; 7; 8] /\
      map (fun v => (VelocityPoint.start v, VelocityPoint.end_ v))
          (TeamDashboardResponse.velocity resp)
      = map (fun k => (example_today - 14 * k, example_today - 14 * k + 13))
            [1; 2; 3; 4; 5; 6; 7; 8]).
Proof.
  split; [valid_by_computation | ].
  apply sprint_windows_tile_the_last_sixteen_weeks; valid_by_computation.
Defined.

Lemma rollover_percent_complements_completion_percent_witness :
  valid_input default_grouping example_today /\
  (exists resp,
      get_team_dashboard default_team_id default_team_name default_grouping false default_item_types
        example_today = Ok resp /\
      forall i, (i < 8)%nat ->
        exists r, generated_row resp i = Some r /\
          SprintRow.rollover_percent r
            = Py.float_round
                (100 * SprintRow.rollover_points r / SprintRow.committed r) 1 /\
          (SprintRow.completion_percent r + SprintRow.rollover_percent r)%float
            = 100%float).
Proof.
  split; [valid_by_computation | ].
  apply rollover_percent_complements_completion_percent; valid_by_computation.
Defined.

Lemma bugs_created_and_items_reopened_witness :
  valid_input default_grouping example_today /\
  (exists resp,
      get_team_dashboard default_team_id default_team_name default_grouping false default_item_types
        example_today = Ok resp /\
      fold_right Z.add 0
        (map SprintRow.bugs_created (TeamDashboardResponse.sprint_rows resp)) = 64 /\
      forall i, (i < 8)%nat ->
        exists r, generated_row resp i = Some r /\
          SprintRow.bugs_created r = 5 + (Z.of_nat i mod 4) * 2 /\
          SprintRow.items_reopened r = Z.of_nat i mod 3 /\
          5 <= SprintRow.bugs_created r <= 11 /\
          0 <= SprintRow.items_reopened r <= 2).
Proof.
  split; [valid_by_computation | ].
  apply bugs_created_and_items_reopened; valid_by_computation.
Defined.

Lemma velocity_kpi_is_mean_completed_witness :
  valid_input default_grouping example_today /\
  (exists resp,
      get_team_dashboard default_team_id default_team_name default_grouping false default_item_types
        example_today = Ok resp /\
      kpi_value resp "Velocity"
      = Some (Py.float_round
                (float_sum (map VelocityPoint.completed
                                (TeamDashboardResponse.velocity resp))
                 / float_len (TeamDashboardResponse.velocity resp)) 1)).
Proof.
  split; [valid_by_computation | ].
  apply velocity_kpi_is_mean_completed; valid_by_computation.
Defined.

Lemma rollover_rate_kpi_witness :
  valid_input default_grouping example_today /\
  (exists resp,
      get_team_dashboard default_team_id default_team_name default_grouping false default_item_types
        example_today = Ok resp /\
      exists rate completion,
        kpi_value resp "Rollover rate %" = Some rate /\
        kpi_value resp "Commitment completion %" = Some completion /\
        rate = Py.float_round
                 (float_sum (map CommitmentPoint.rollover
                                 (TeamDashboardResponse.commitment_vs_completion resp))
                  / float_sum (map CommitmentPoint.committed
                                   (TeamDashboardResponse.commitment_vs_completion resp))
                  * 100) 1 /\
        (completion + rate)%float = 100%float).
Proof.
  split; [valid_by_computation | ].
  apply rollover_rate_kpi; valid_by_computation.
Defined.

Lemma dor_and_bug_ratio_kpis_witness :
  valid_input default_grouping example_today /\
  (exists resp,
      get_team_dashboard default_team_id default_team_name default_grouping false default_item_types
        example_today = Ok resp /\
      kpi_value resp "DoR compliance %"
      = Some (Py.float_round
                (float_sum (map SprintRow.dor_compliance_percent
                                (TeamDashboardResponse.sprint_rows resp))
                 / float_len (TeamDashboardResponse.sprint_rows resp)) 1) /\
      kpi_value resp "DoR compliance %" = Some 84.4%float /\
      kpi_value resp "Bug ratio"
      = Some (Py.float_round
                (Py.float_of_Z
                   (fold_right Z.add 0
                      (map SprintRow.bugs_created
                           (TeamDashboardResponse.sprint_rows resp)))
                 / Py.float_of_Z
                     (Z.max 1
                        (Z.of_nat (List.length (TeamDashboardResponse.sprint_rows resp))
                         * 12))) 2)).
Proof.
  split; [valid_by_computation | ].
  apply dor_and_bug_ratio_kpis; valid_by_computation.
Defined.

Lemma kpis_labels_and_deltas_witness :
  valid_input default_grouping example_today /\
  (exists resp,
      get_team_dashboard default_team_id default_team_name default_grouping false default_item_types
        example_today = Ok resp /\
      map KPI.label (TeamDashboardResponse.kpis resp)
      = ["Velocity"; "Throughput"; "Commitment completion %"; "Rollover rate %";
         "DoR compliance %"; "Bug ratio"] /\
      NoDup (map KPI.label (TeamDashboardResponse.kpis resp)) /\
      map KPI.delta (TeamDashboardResponse.kpis resp)
      = [Some 1.2%float; Some (-0.5)%float; Some 2.1%float; Some (-1.4)%float;
         Some 0.8%float; Some (-0.1)%float] /\
      Forall (fun k => KPI.help k <> None) (TeamDashboardResponse.kpis resp)).
Proof.
  split; [valid_by_computation | ].
  apply kpis_labels_and_deltas; valid_by_computation.
Defined.


Lemma figures_do_not_depend_on_today_witness :
  valid_input default_grouping example_today /\
  valid_input default_grouping 738900 /\
  (exists resp resp',
      get_team_dashboard default_team_id default_team_name default_grouping false default_item_types
        example_today = Ok resp /\
      get_team_dashboard default_team_id default_team_name default_grouping false default_item_types
        738900 = Ok resp' /\
      TeamDashboardResponse.kpis resp = TeamDashboardResponse.kpis resp' /\
      TeamDashboardResponse.scope_change resp
        = TeamDashboardResponse.scope_change resp' /\
      TeamDashboardResponse.commitment_vs_completion resp
        = TeamDashboardResponse.commitment_vs_completion resp' /\
      TeamDashboardResponse.rollover_trend resp
        = TeamDashboardResponse.rollover_trend resp' /\
      map row_figures (TeamDashboardResponse.sprint_rows resp)
        = map row_figures (TeamDashboardResponse.sprint_rows resp')).
Proof.
  split; [valid_by_computation | split; [valid_by_computation | ]].
  apply figures_do_not_depend_on_today; valid_by_computation.
Defined.

